(** * lbry.wallet.server.session: the claim-trie handlers of the wallet server

    A shallow embedding of [lbry/wallet/server/session.py]: the session
    manager's worker-pool start-up, the RPC handlers of [LBRYElectrumX], the
    claim normaliser [format_claim_from_daemon] and the helper
    [get_from_possible_keys], followed by the properties the specification
    states about them.

    Python values are the JSON values the daemon and the clients exchange.
    Text is a list of code points, bytes are [Byte.byte], a [dict] with text
    keys is a [gmap].  Exceptions are values of [pyexc]; a [def] is a function
    into [outcome], an [async def] a function into [io], which also records the
    requests sent to the daemon and to the query executor. *)

From stdpp Require Import gmap strings list fin_maps.
From Stdlib Require Import ZArith NArith Ascii.
From Stdlib.Strings Require Import Byte.

Open Scope Z_scope.

(** ** Python values *)

(** [str]: a sequence of Unicode code points. *)
Abbreviation pystr := (list N).
(** [bytes]. *)
Abbreviation pybytes := (list byte).

(** A string literal of the source, as text. *)
Definition lit (s : string) : pystr :=
  N_of_ascii <$> String.list_ascii_of_string s.

(** The values [json.loads] produces, floats left out: the heights, amounts
    and confirmation counts these handlers compute with are integers. *)
#[warnings="-register-all"]
Inductive pyval :=
| PyNone
| PyBool (b : bool)
| PyInt (z : Z)
| PyStr (s : pystr)
| PyList (l : list pyval)
| PyDict (d : gmap pystr pyval).

Abbreviation pydict := (gmap pystr pyval).

(** Truth value testing ([if x], [x and y], [not x]). *)
Definition truthy (v : pyval) : bool :=
  match v with
  | PyNone => false
  | PyBool b => b
  | PyInt z => negb (z =? 0)
  | PyStr s => negb (bool_decide (s = []))
  | PyList l => match l with [] => false | _ :: _ => true end
  | PyDict d => negb (bool_decide (dom d = ∅))
  end.

(** ** Exceptions *)

(** The text of an f-string [f'{value}tail']: the interpolated value and the
    literal text after it. *)
Inductive message :=
| FString (value : pyval) (tail : pystr).

(** The rendered text, when the interpolated value is itself text. *)
Definition message_text (m : message) : option pystr :=
  match m with
  | FString (PyStr s) tail => Some (s ++ tail)
  | FString _ _ => None
  end.

Inductive pyexc :=
| RPCError (code : Z) (msg : message)
| KeyError (key : pystr)
| TypeError
| AttributeError
| ValueError
| UnicodeEncodeError
| UnicodeDecodeError
| DaemonError (detail : pystr).

Inductive outcome (A : Type) :=
| Ok (a : A)
| Raise (e : pyexc).
Arguments Ok {A} a.
Arguments Raise {A} e.

#[export] Instance outcome_ret : MRet outcome := λ A a, Ok a.
#[export] Instance outcome_bind : MBind outcome := λ A B f r,
  match r with
  | Ok a => f a
  | Raise e => Raise e
  end.
#[export] Instance outcome_fmap : FMap outcome := λ A B f r,
  match r with
  | Ok a => Ok (f a)
  | Raise e => Raise e
  end.

(** ** Requests to the collaborators *)

Inductive event :=
| DaemonRequest (method : string) (params : list pyval)
| ExecutorSubmit (query : string) (arg : pyval).

(** An [async def]: the requests it awaited, in order, and its outcome. *)
Definition io (A : Type) : Type := list event * outcome A.

#[export] Instance io_ret : MRet io := λ A a, ([], Ok a).
#[export] Instance io_bind : MBind io := λ A B f m,
  match m with
  | (t, Ok a) => let '(t', r) := f a in (t ++ t', r)
  | (t, Raise e) => (t, Raise e)
  end.
#[export] Instance io_fmap : FMap io := λ A B f m, (m.1, f <$> m.2).

(** A synchronous call inside a coroutine. *)
Definition call {A} (r : outcome A) : io A := ([], r).
(** [await] on a collaborator: the request is recorded, the reply is the
    collaborator's. *)
Definition await {A} (e : event) (reply : outcome A) : io A := ([e], reply).

(** ** dict and text operations *)

(** [d[key]] *)
Definition getitem (d : pydict) (key : pystr) : outcome pyval :=
  match d !! key with
  | Some v => Ok v
  | None => Raise (KeyError key)
  end.

(** [d.get(key)] *)
Definition dict_get (d : pydict) (key : pystr) : pyval :=
  default PyNone (d !! key).

(** [dict(pairs)]: a later pair overwrites an earlier one with the same key. *)
Definition dict_of_pairs {V} (pairs : list (pystr * V)) : gmap pystr V :=
  foldl (λ m kv, <[kv.1 := kv.2]> m) ∅ pairs.

(** [int - x] *)
Definition int_sub (a : Z) (x : pyval) : outcome Z :=
  match x with
  | PyInt z => Ok (a - z)
  | PyBool b => Ok (a - (if b then 1 else 0))
  | _ => Raise TypeError
  end.

(** [s.encode('ISO-8859-1')]: one byte per character, characters above
    U+00FF cannot be encoded; only [str] has the method. *)
Definition encode_latin1 (v : pyval) : outcome pybytes :=
  match v with
  | PyStr s =>
      match mapM Byte.of_N s with
      | Some bs => Ok bs
      | None => Raise UnicodeEncodeError
      end
  | _ => Raise AttributeError
  end.

Definition in_range (lo hi b : N) : bool := ((lo <=? b) && (b <=? hi))%N.
Definition continuation (b : N) : bool := in_range 0x80 0xBF b.

(** Strict UTF-8: shortest forms only, no surrogates, nothing above
    U+10FFFF. *)
Fixpoint utf8_decode (bs : list N) : option pystr :=
  match bs with
  | [] => Some []
  | b0 :: r0 =>
      if (b0 <? 0x80)%N then (b0 ::.) <$> utf8_decode r0
      else if in_range 0xC2 0xDF b0 then
        match r0 with
        | b1 :: r1 =>
            if continuation b1
            then (((b0 - 0xC0) * 64 + (b1 - 0x80))%N ::.) <$> utf8_decode r1
            else None
        | _ => None
        end
      else if in_range 0xE0 0xEF b0 then
        match r0 with
        | b1 :: b2 :: r2 =>
            if in_range (if (b0 =? 0xE0)%N then 0xA0 else 0x80)
                        (if (b0 =? 0xED)%N then 0x9F else 0xBF) b1
               && continuation b2
            then ((((b0 - 0xE0) * 64 + (b1 - 0x80)) * 64 + (b2 - 0x80))%N ::.)
                   <$> utf8_decode r2
            else None
        | _ => None
        end
      else if in_range 0xF0 0xF4 b0 then
        match r0 with
        | b1 :: b2 :: b3 :: r3 =>
            if in_range (if (b0 =? 0xF0)%N then 0x90 else 0x80)
                        (if (b0 =? 0xF4)%N then 0x8F else 0xBF) b1
               && continuation b2 && continuation b3
            then (((((b0 - 0xF0) * 64 + (b1 - 0x80)) * 64 + (b2 - 0x80)) * 64
                     + (b3 - 0x80))%N ::.) <$> utf8_decode r3
            else None
        | _ => None
        end
      else None
  end.

(** [b.decode()] *)
Definition bytes_decode (b : pybytes) : outcome pystr :=
  match utf8_decode (Byte.to_N <$> b) with
  | Some s => Ok s
  | None => Raise UnicodeDecodeError
  end.

(** [x.encode('ISO-8859-1').decode()] *)
Definition latin1_to_text (v : pyval) : outcome pystr :=
  b ← encode_latin1 v; bytes_decode b.

Definition hexdigit (n : N) : byte :=
  match n with
  | 0 => "0" | 1 => "1" | 2 => "2" | 3 => "3" | 4 => "4" | 5 => "5"
  | 6 => "6" | 7 => "7" | 8 => "8" | 9 => "9" | 10 => "a" | 11 => "b"
  | 12 => "c" | 13 => "d" | 14 => "e" | _ => "f"
  end%N%byte.

(** [binascii.hexlify] *)
Definition hexlify (b : pybytes) : pybytes :=
  b ≫= λ x, [hexdigit (Byte.to_N x / 16); hexdigit (Byte.to_N x mod 16)].

(** ** Collaborators *)

(** What the module imports and does not define: [util.hex_to_bytes] of the
    base server, the two query routines of [reader] that run in a worker,
    [base64.b64encode] and [os.cpu_count]. *)
Class Imports := {
  hex_to_bytes : pyval → outcome pybytes;
  search_to_bytes : pydict → outcome pybytes;
  resolve_to_bytes : list pyval → outcome pybytes;
  b64encode : pybytes → pybytes;
  os_cpu_count : pyval;
}.

(** The row [self.db.sql.get_claims] finds for a claim id. *)
Record ClaimInfo := {
  address : pybytes;
}.

Record LBRYDB := {
  db_height : Z;
  sql_get_claims : pyval → option ClaimInfo;
}.

Record LBRYBlockProcessor := {
  height : Z;
  bp_db : LBRYDB;
}.

(** The daemon client: what it answers to a request, or the exception it
    raises. A raw transaction and a raw claim are a JSON object or nothing. *)
Record Daemon := {
  getrawtransaction : pyval → bool → outcome (option pydict);
  getclaimsbyids : list pystr → outcome (list (option pydict));
}.

(** ** LBRYSessionManager *)

Record Env := {
  max_query_workers : option Z;
  coin_NET : pystr;
}.

Inductive callable :=
| reader_initializer.

(** The executor the manager asks for: the constructor and its arguments. *)
Inductive Executor :=
| ThreadPoolExecutor (max_workers : Z) (initializer : callable)
    (initargs : pystr * pystr)
| ProcessPoolExecutor (max_workers : Z) (initializer : callable)
    (initargs : pystr * pystr).

Record LBRYSessionManager := {
  env : Env;
  query_executor : option Executor;
}.

(** [max(a, 4)] for whatever [os.cpu_count()] returned. *)
Definition max_with_4 (a : pyval) : outcome Z :=
  match a with
  | PyInt n => Ok (Z.max n 4)
  | _ => Raise TypeError
  end.

Definition start_other `{Imports} (self : LBRYSessionManager)
    : outcome LBRYSessionManager :=
  let initializer := reader_initializer in
  let initargs := (lit "claims.db", coin_NET (env self)) in
  match max_query_workers (env self) with
  | Some 0 =>
      Ok {| env := env self;
            query_executor := Some (ThreadPoolExecutor 1 initializer initargs) |}
  | configured =>
      max_workers ← match configured with
                    | Some n => if n =? 0 then max_with_4 os_cpu_count else Ok n
                    | None => max_with_4 os_cpu_count
                    end;
      Ok {| env := env self;
            query_executor :=
              Some (ProcessPoolExecutor max_workers initializer initargs) |}
  end.

(** Modelled from the spec: the workers an executor stands for; the executor
    classes are the standard library's. A thread pool runs its workers
    inside the server's process, a process pool runs each in a process of
    its own, and every worker, when it is created, calls the initializer
    once with [initargs] and so opens its own read-only connection to the
    index at that path for that network. *)
Record Worker := {
  in_process : bool;
  index_path : pystr;
  network : pystr;
}.

Definition workers (e : Executor) : list Worker :=
  match e with
  | ThreadPoolExecutor n reader_initializer (path, net) =>
      replicate (Z.to_nat n)
        {| in_process := true; index_path := path; network := net |}
  | ProcessPoolExecutor n reader_initializer (path, net) =>
      replicate (Z.to_nat n)
        {| in_process := false; index_path := path; network := net |}
  end.

(** ** LBRYElectrumX *)

(** [math.inf], among the integers an error count is compared with. *)
Inductive limit :=
| Finite (n : Z)
| Infinity.

Definition max_errors : limit := Infinity.

Record LBRYElectrumX := {
  daemon : Daemon;
  bp : LBRYBlockProcessor;
}.

Definition db (self : LBRYElectrumX) : LBRYDB := bp_db (bp self).

Fixpoint get_from_possible_keys (dictionary : pydict) (keys : list pystr)
    : pyval :=
  match keys with
  | [] => PyNone
  | key :: keys =>
      match dictionary !! key with
      | Some v => v
      | None => get_from_possible_keys dictionary keys
      end
  end.

Definition assert_tx_hash `{Imports} (value : pyval) : outcome () :=
  match hex_to_bytes value with
  | Ok b =>
      if bool_decide (length b = 32%nat) then Ok ()
      else Raise (RPCError 1 (FString value (lit " should be a transaction hash")))
  | Raise _ =>
      Raise (RPCError 1 (FString value (lit " should be a transaction hash")))
  end.

Definition assert_claim_id `{Imports} (value : pyval) : outcome () :=
  match hex_to_bytes value with
  | Ok b =>
      if bool_decide (length b = 20%nat) then Ok ()
      else Raise (RPCError 1 (FString value (lit " should be a claim id hash")))
  | Raise _ =>
      Raise (RPCError 1 (FString value (lit " should be a claim id hash")))
  end.

Definition format_claim_from_daemon (self : LBRYElectrumX)
    (claim : option pydict) (name : pyval) : outcome pydict :=
  match claim with
  | None => Ok ∅
  | Some claim =>
  if negb (truthy (PyDict claim)) then Ok ∅ else
  name ← match claim !! lit "name" with
         | Some raw => PyStr <$> latin1_to_text raw
         | None => Ok name
         end;
  claimId ← getitem claim (lit "claimId");
  match sql_get_claims (db self) claimId with
  | None => Ok ∅
  | Some info =>
  address ← bytes_decode (address info);
  let supports := [] in
  let amount := get_from_possible_keys claim [lit "amount"; lit "nAmount"] in
  let height := get_from_possible_keys claim [lit "height"; lit "nHeight"] in
  let effective_amount :=
    get_from_possible_keys claim [lit "effective amount"; lit "nEffectiveAmount"] in
  let valid_at_height :=
    get_from_possible_keys claim [lit "valid at height"; lit "nValidAtHeight"] in
  txid ← getitem claim (lit "txid");
  nout ← getitem claim (lit "n");
  above ← int_sub (db_height (db self)) height;
  value ← getitem claim (lit "value");
  value ← encode_latin1 value;
  value ← bytes_decode (hexlify value);
  let result : pydict := dict_of_pairs [
    (lit "name", name);
    (lit "claim_id", claimId);
    (lit "txid", txid);
    (lit "nout", nout);
    (lit "amount", amount);
    (lit "depth", PyInt (above + 1));
    (lit "height", height);
    (lit "value", PyStr value);
    (lit "address", PyStr address);
    (lit "supports", PyList supports);
    (lit "effective_amount", effective_amount);
    (lit "valid_at_height", valid_at_height)
  ] in
  let result :=
    match claim !! lit "claim_sequence" with
    | Some sequence => <[lit "claim_sequence" := sequence]> result
    | None => <[lit "claim_sequence" := PyInt (-1)]> result
    end in
  match claim !! lit "normalized_name" with
  | Some raw =>
      normalized ← latin1_to_text raw;
      Ok (<[lit "normalized_name" := PyStr normalized]> result)
  | None => Ok result
  end
  end
  end.

(** The condition of the loop below: [claim and claim.get('value')]. *)
Definition has_value (claim : option pydict) : bool :=
  match claim with
  | Some claim =>
      truthy (PyDict claim) && truthy (dict_get claim (lit "value"))
  | None => false
  end.

(** The [for] loop of [batched_formatted_claims_from_daemon], [result]
    being the list built so far. *)
Fixpoint format_each (self : LBRYElectrumX) (claims : list (option pydict))
    (result : list pydict) : outcome (list pydict) :=
  match claims with
  | [] => Ok result
  | claim :: claims =>
      if has_value claim then
        formatted ← format_claim_from_daemon self claim PyNone;
        format_each self claims (result ++ [formatted])
      else format_each self claims result
  end.

Definition batched_formatted_claims_from_daemon (self : LBRYElectrumX)
    (claim_ids : list pystr) : io (list pydict) :=
  claims ← await (DaemonRequest "getclaimsbyids" (PyStr <$> claim_ids))
                 (getclaimsbyids (daemon self) claim_ids);
  call (format_each self claims []).

Definition claimtrie_getclaimsbyids (self : LBRYElectrumX)
    (claim_ids : list pystr) : io (gmap pystr pydict) :=
  claims ← batched_formatted_claims_from_daemon self claim_ids;
  mret (dict_of_pairs (zip claim_ids claims)).

Definition transaction_get_height `{Imports} (self : LBRYElectrumX)
    (tx_hash : pyval) : io pyval :=
  call (assert_tx_hash tx_hash);;
  transaction_info ← await (DaemonRequest "getrawtransaction" [tx_hash; PyBool true])
                           (getrawtransaction (daemon self) tx_hash true);
  match transaction_info with
  | Some info =>
      if truthy (PyDict info) && bool_decide (is_Some (info !! lit "hex"))
         && bool_decide (is_Some (info !! lit "confirmations"))
      then
        confirmations ← call (getitem info (lit "confirmations"));
        below ← call (int_sub (db_height (db self)) confirmations);
        mret (PyInt (below + 1))
      else if truthy (PyDict info) && bool_decide (is_Some (info !! lit "hex"))
      then mret (PyInt (-1))
      else mret PyNone
  | None => mret PyNone
  end.

Definition get_server_height (self : LBRYElectrumX) : io pyval :=
  mret (PyInt (height (bp self))).

Definition claimtrie_search `{Imports} (self : LBRYElectrumX)
    (kwargs : pydict) : io pyval :=
  match kwargs !! lit "claim_id" with
  | Some claim_id => call (assert_claim_id claim_id)
  | None => mret ()
  end;;
  found ← await (ExecutorSubmit "reader.search_to_bytes" (PyDict kwargs))
                (search_to_bytes kwargs);
  PyStr <$> call (bytes_decode (b64encode found)).

Definition claimtrie_resolve `{Imports} (self : LBRYElectrumX)
    (urls : list pyval) : io pyval :=
  found ← await (ExecutorSubmit "reader.resolve_to_bytes" (PyList urls))
                (resolve_to_bytes urls);
  PyStr <$> call (bytes_decode (b64encode found)).

(** The handlers [set_request_handlers] registers, by the request each one
    answers. *)
Inductive request :=
| transaction_get_height_request (tx_hash : pyval)
| claimtrie_search_request (kwargs : pydict)
| claimtrie_resolve_request (urls : list pyval)
| claimtrie_getclaimsbyids_request (claim_ids : list pystr)
| get_server_height_request.

Definition request_handlers `{Imports} (self : LBRYElectrumX) (r : request)
    : io pyval :=
  match r with
  | transaction_get_height_request tx_hash => transaction_get_height self tx_hash
  | claimtrie_search_request kwargs => claimtrie_search self kwargs
  | claimtrie_resolve_request urls => claimtrie_resolve self urls
  | claimtrie_getclaimsbyids_request claim_ids =>
      (λ claims : gmap pystr pydict, PyDict (PyDict <$> claims))
        <$> claimtrie_getclaimsbyids self claim_ids
  | get_server_height_request => get_server_height self
  end.

(** ** The error budget of the base session *)

(** Modelled from the spec: the error accounting of the base session class,
    which is not among the sources. The session keeps a counter of the
    requests that ended in an error and is disconnected once the counter
    reaches its [max_errors]; a disconnected session serves nothing more. *)
Record SessionState := {
  errors : Z;
  closed : bool;
}.

(** Modelled from the spec: whether a count of errors exhausts a budget; an
    infinite budget is never exhausted. *)
Definition reached (l : limit) (count : Z) : bool :=
  match l with
  | Finite n => n <=? count
  | Infinity => false
  end.

(** Modelled from the spec: one request on a session. A closed session
    serves nothing; an open one dispatches the request, and a request that
    raises is counted and may exhaust the budget. *)
Definition serve `{Imports} (tolerance : limit) (self : LBRYElectrumX)
    (s : SessionState) (r : request) : SessionState :=
  if closed s then s
  else match (request_handlers self r).2 with
       | Ok _ => s
       | Raise _ =>
           {| errors := errors s + 1;
              closed := reached tolerance (errors s + 1) |}
       end.

Definition serve_all `{Imports} (tolerance : limit) (self : LBRYElectrumX)
    (s : SessionState) (rs : list request) : SessionState :=
  foldl (serve tolerance self) s rs.

(** A request that ends in an exception. *)
Definition erroring `{Imports} (self : LBRYElectrumX) (r : request) : Prop :=
  ∃ e, (request_handlers self r).2 = Raise e.

Definition fresh_session : SessionState := {| errors := 0; closed := false |}.

(** ** A concrete server, for examples *)

Definition hex_value (c : N) : option N :=
  if in_range 48 57 c then Some (c - 48)%N
  else if in_range 97 102 c then Some (c - 87)%N
  else if in_range 65 70 c then Some (c - 55)%N
  else None.

Fixpoint hex_pairs (s : pystr) : option pybytes :=
  match s with
  | [] => Some []
  | hi :: lo :: rest =>
      h ← hex_value hi; l ← hex_value lo;
      b ← Byte.of_N (16 * h + l); (b ::.) <$> hex_pairs rest
  | _ => None
  end.

(** Modelled from the spec: [util.hex_to_bytes] of the base server, which is
    not among the sources. The specification asks that a hash "decode to
    exactly 32 bytes as hexadecimal", 64 hex characters: text is read two
    hexadecimal digits to the byte, anything else raises. *)
Definition decode_hex (value : pyval) : outcome pybytes :=
  match value with
  | PyStr s =>
      match hex_pairs s with
      | Some b => Ok b
      | None => Raise ValueError
      end
  | _ => Raise TypeError
  end.

Definition base64_alphabet : pybytes :=
  String.list_byte_of_string
    "ABCDEFGHIJKLMNOPQRSTUVWXYZabcdefghijklmnopqrstuvwxyz0123456789+/".

Definition sextet (n : N) : byte := nth (N.to_nat n) base64_alphabet "="%byte.

(** RFC 4648 base64 with padding, over byte values. *)
Fixpoint base64 (b : list N) : pybytes :=
  match b with
  | [] => []
  | [x] => [sextet (x / 4); sextet (x mod 4 * 16); "="; "="]%N%byte
  | [x; y] =>
      [sextet (x / 4); sextet (x mod 4 * 16 + y / 16);
       sextet (y mod 16 * 4); "="%byte]%N
  | x :: y :: z :: rest =>
      [sextet (x / 4); sextet (x mod 4 * 16 + y / 16);
       sextet (y mod 16 * 4 + z / 64); sextet (z mod 64)]%N ++ base64 rest
  end.

Definition ascii_bytes (s : string) : pybytes := String.list_byte_of_string s.

(** A host with eight cores whose workers answer every query with the same
    three bytes. *)
Definition demo_imports : Imports := {|
  hex_to_bytes := decode_hex;
  search_to_bytes := λ _, Ok (ascii_bytes "Man");
  resolve_to_bytes := λ _, Ok (ascii_bytes "Ma");
  b64encode := λ b, base64 (Byte.to_N <$> b);
  os_cpu_count := PyInt 8;
|}.

Definition demo_claim (claim_id : string) (fields : list (pystr * pyval))
    : pydict :=
  dict_of_pairs ([(lit "claimId", PyStr (lit claim_id));
                  (lit "txid", PyStr (lit "7a")); (lit "n", PyInt 0)]
                 ++ fields).

(** Both spellings of the four aliased fields, with different values. *)
Definition claim_both : pydict :=
  demo_claim "a1" [
    (lit "name", PyStr (lit "one")); (lit "value", PyStr (lit "v"));
    (lit "amount", PyInt 5); (lit "nAmount", PyInt 7);
    (lit "height", PyInt 90); (lit "nHeight", PyInt 80);
    (lit "effective amount", PyInt 6); (lit "nEffectiveAmount", PyInt 8);
    (lit "valid at height", PyInt 91); (lit "nValidAtHeight", PyInt 81)].

(** A claim without a [value]. *)
Definition claim_bare : pydict :=
  demo_claim "b2" [(lit "nAmount", PyInt 1); (lit "nHeight", PyInt 70)].

(** Legacy spellings only. *)
Definition claim_legacy : pydict :=
  demo_claim "c3" [
    (lit "name", PyStr (lit "three")); (lit "value", PyStr (lit "w"));
    (lit "nAmount", PyInt 3); (lit "nHeight", PyInt 60);
    (lit "nEffectiveAmount", PyInt 3); (lit "nValidAtHeight", PyInt 61)].

(** Complete on the daemon's side, unknown to the index. *)
Definition claim_unindexed : pydict :=
  demo_claim "d4" [
    (lit "name", PyStr (lit "four")); (lit "value", PyStr (lit "x"));
    (lit "amount", PyInt 4); (lit "height", PyInt 50);
    (lit "effective amount", PyInt 4); (lit "valid at height", PyInt 51)].

(** Unknown to the index, and named by the single character U+00FF, whose
    ISO-8859-1 byte 0xFF is not UTF-8. *)
Definition claim_misnamed : pydict :=
  demo_claim "e5" [
    (lit "name", PyStr [0xFF%N]); (lit "value", PyStr (lit "y"));
    (lit "amount", PyInt 4); (lit "height", PyInt 50)].

(** Known to the index, without a height under either spelling. *)
Definition claim_no_height : pydict :=
  demo_claim "f6" [
    (lit "name", PyStr (lit "six")); (lit "value", PyStr (lit "z"));
    (lit "amount", PyInt 4)].

Definition demo_chain : gmap pystr pydict :=
  dict_of_pairs [(lit "a1", claim_both); (lit "b2", claim_bare);
                 (lit "c3", claim_legacy); (lit "d4", claim_unindexed);
                 (lit "e5", claim_misnamed); (lit "f6", claim_no_height)].

Definition demo_index : gmap pystr ClaimInfo :=
  dict_of_pairs [(lit "a1", {| address := ascii_bytes "bA" |});
                 (lit "b2", {| address := ascii_bytes "bB" |});
                 (lit "c3", {| address := ascii_bytes "bC" |});
                 (lit "f6", {| address := ascii_bytes "bF" |})].

Definition tx_confirmed : pystr := lit "11" ≫= λ c, replicate 32 c.
Definition tx_mempool : pystr := lit "22" ≫= λ c, replicate 32 c.
Definition tx_unknown : pystr := lit "33" ≫= λ c, replicate 32 c.

(** 62 hexadecimal digits: one byte short of a transaction hash. *)
Definition tx_short : pystr := lit "44" ≫= λ c, replicate 31 c.

(** The daemon's replies for the confirmed and for the unconfirmed hash. *)
Definition reply_confirmed : pydict :=
  dict_of_pairs [(lit "hex", PyStr (lit "0100")); (lit "confirmations", PyInt 3)].
Definition reply_mempool : pydict :=
  dict_of_pairs [(lit "hex", PyStr (lit "0100"))].

Definition demo_daemon : Daemon := {|
  getrawtransaction := λ tx_hash _,
    match tx_hash with
    | PyStr s =>
        Ok (if bool_decide (s = tx_confirmed) then Some reply_confirmed
            else if bool_decide (s = tx_mempool) then Some reply_mempool
            else None)
    | _ => Raise (DaemonError (lit "bad request"))
    end;
  getclaimsbyids := λ claim_ids, Ok ((demo_chain !!.) <$> claim_ids);
|}.

Definition demo_db : LBRYDB := {|
  db_height := 100;
  sql_get_claims := λ claim_id,
    match claim_id with
    | PyStr s => demo_index !! s
    | _ => None
    end;
|}.

Definition demo : LBRYElectrumX := {|
  daemon := demo_daemon;
  bp := {| height := 100; bp_db := demo_db |};
|}.

(** Criteria with a claim id of three characters, and the manager of a
    server on the main network before start-up. *)
Definition criteria_bad_id : pydict :=
  dict_of_pairs [(lit "name", PyStr (lit "one"));
                 (lit "claim_id", PyStr (lit "abc"))].

Definition manager (configured : option Z) : LBRYSessionManager := {|
  env := {| max_query_workers := configured; coin_NET := lit "mainnet" |};
  query_executor := None;
|}.

Definition started (configured : option Z) (e : Executor)
    : LBRYSessionManager := {|
  env := env (manager configured);
  query_executor := Some e;
|}.

(** The canonical records of the two demo claims that normalise. *)
Definition record_both : pydict :=
  dict_of_pairs [
    (lit "name", PyStr (lit "one")); (lit "claim_id", PyStr (lit "a1"));
    (lit "txid", PyStr (lit "7a")); (lit "nout", PyInt 0);
    (lit "amount", PyInt 5); (lit "depth", PyInt 11);
    (lit "height", PyInt 90); (lit "value", PyStr (lit "76"));
    (lit "address", PyStr (lit "bA")); (lit "supports", PyList []);
    (lit "effective_amount", PyInt 6); (lit "valid_at_height", PyInt 91);
    (lit "claim_sequence", PyInt (-1))].

Definition record_legacy : pydict :=
  dict_of_pairs [
    (lit "name", PyStr (lit "three")); (lit "claim_id", PyStr (lit "c3"));
    (lit "txid", PyStr (lit "7a")); (lit "nout", PyInt 0);
    (lit "amount", PyInt 3); (lit "depth", PyInt 41);
    (lit "height", PyInt 60); (lit "value", PyStr (lit "77"));
    (lit "address", PyStr (lit "bC")); (lit "supports", PyList []);
    (lit "effective_amount", PyInt 3); (lit "valid_at_height", PyInt 61);
    (lit "claim_sequence", PyInt (-1))].

(** ** Vocabulary of the statements *)

(** [got] is what a lookup that tries [current] first and [legacy] second
    finds in [record]: the value under the first of the two keys that is
    present, [None] of Python when neither is. *)
Definition first_present (record : pydict) (current legacy : pystr)
    (got : option pyval) : Prop :=
  (∀ v, record !! current = Some v → got = Some v) ∧
  (record !! current = None → ∀ v, record !! legacy = Some v → got = Some v) ∧
  (record !! current = None → record !! legacy = None → got = Some PyNone).

(** [name], when the claim carries one, is text whose ISO-8859-1 bytes read
    as UTF-8. *)
Definition name_decodes (claim : pydict) : Prop :=
  ∀ raw, claim !! lit "name" = Some raw → ∃ text, latin1_to_text raw = Ok text.

(** Position [i] holds [id] and no later position does. *)
Definition last_at (ids : list pystr) (i : nat) (id : pystr) : Prop :=
  ids !! i = Some id ∧ ∀ j, (i < j)%nat → ids !! j ≠ Some id.

(** A hexadecimal digit, of either case. *)
Definition hex_digit (c : N) : Prop := is_Some (hex_value c).

(** The claims the batch path keeps. *)
Definition surviving (claims : list (option pydict)) : list (option pydict) :=
  filter (λ claim, has_value claim) claims.

(** The normaliser as the batch path calls it. *)
Definition normalize (self : LBRYElectrumX) (claim : option pydict)
    : outcome pydict :=
  format_claim_from_daemon self claim PyNone.

(** * Properties *)

(** ** Proof steps shared by the lemmas on the normaliser *)

(** Splits the first [≫=] of a computation known to return. *)
Tactic Notation "bind_ok" hyp(H) "as" ident(x) :=
  match type of H with
  | (?m ≫= _) = Ok _ =>
      let E := fresh "E" x in
      destruct m as [x|] eqn:E; cbn [mbind outcome_bind] in H;
      [|discriminate H]
  end.

(** Looks a literal key up in a record built by successive stores. *)
Ltac lookup_key :=
  repeat first
    [ rewrite lookup_insert_ne by (vm_compute; discriminate)
    | rewrite lookup_insert_eq ].

(** ** The codecs on known inputs *)

(** 'é' arrives from the daemon as the two characters U+00C3 U+00A9 and is
    read back as the one character U+00E9; a euro sign and an emoji take
    three and four bytes. *)
Example latin1_to_text_e_acute :
  latin1_to_text (PyStr [0xC3; 0xA9]%N) = Ok [0xE9%N].
Proof. reflexivity. Qed.

Example utf8_decode_wide :
  utf8_decode [0xE2; 0x82; 0xAC; 0xF0; 0x9F; 0x98; 0x80]%N
  = Some [0x20AC; 0x1F600]%N.
Proof. reflexivity. Qed.

(** Not UTF-8: a stray 0xFF, an overlong NUL, a surrogate, a truncated
    sequence. A character above U+00FF has no ISO-8859-1 byte, and only text
    can be encoded. *)
Example utf8_decode_rejects :
  utf8_decode [0xFF%N] = None ∧ utf8_decode [0xC0; 0x80]%N = None ∧
  utf8_decode [0xED; 0xA0; 0x80]%N = None ∧ utf8_decode [0x41; 0xC3]%N = None.
Proof. repeat split. Qed.

Example latin1_to_text_raises :
  latin1_to_text (PyStr [0xFF%N]) = Raise UnicodeDecodeError ∧
  latin1_to_text (PyStr [0x100%N]) = Raise UnicodeEncodeError ∧
  latin1_to_text (PyInt 5) = Raise AttributeError.
Proof. repeat split. Qed.

Example hexlify_bytes :
  hexlify ["v"; "000"; "255"]%byte = ascii_bytes "7600ff".
Proof. reflexivity. Qed.

(** The test vectors of RFC 4648. *)
Example base64_vectors :
  base64 (Byte.to_N <$> ascii_bytes "f") = ascii_bytes "Zg==" ∧
  base64 (Byte.to_N <$> ascii_bytes "fo") = ascii_bytes "Zm8=" ∧
  base64 (Byte.to_N <$> ascii_bytes "foo") = ascii_bytes "Zm9v" ∧
  base64 (Byte.to_N <$> ascii_bytes "foobar") = ascii_bytes "Zm9vYmFy".
Proof. repeat split. Qed.

Example decode_hex_cases :
  decode_hex (PyStr (lit "00ffAb")) = Ok ["000"; "255"; "171"]%byte ∧
  decode_hex (PyStr (lit "00f")) = Raise ValueError ∧
  decode_hex (PyStr (lit "0g")) = Raise ValueError ∧
  decode_hex (PyInt 0) = Raise TypeError.
Proof. repeat split. Qed.

(** ** dict access *)

Lemma getitem_Some (d : pydict) key v : d !! key = Some v → getitem d key = Ok v.
Proof. unfold getitem. by intros ->. Qed.

(** ** get_from_possible_keys *)

Lemma get_from_possible_keys_first_present dictionary current legacy :
  first_present dictionary current legacy
    (Some (get_from_possible_keys dictionary [current; legacy])).
Proof.
  unfold first_present; cbn [get_from_possible_keys].
  repeat split.
  - by intros v ->.
  - by intros -> v ->.
  - by intros -> ->.
Qed.

(** ** format_claim_from_daemon *)

(** The fields of a canonical record that the statements below look at. *)
Lemma format_claim_fields self claim name record :
  format_claim_from_daemon self (Some claim) name = Ok record →
  record ≠ ∅ →
  record !! lit "amount"
    = Some (get_from_possible_keys claim [lit "amount"; lit "nAmount"]) ∧
  record !! lit "height"
    = Some (get_from_possible_keys claim [lit "height"; lit "nHeight"]) ∧
  record !! lit "effective_amount"
    = Some (get_from_possible_keys claim
              [lit "effective amount"; lit "nEffectiveAmount"]) ∧
  record !! lit "valid_at_height"
    = Some (get_from_possible_keys claim
              [lit "valid at height"; lit "nValidAtHeight"]) ∧
  is_Some (record !! lit "value").
Proof.
  intros Hf Hne. unfold format_claim_from_daemon in Hf.
  destruct (negb (truthy (PyDict claim))); [by simplify_eq|].
  bind_ok Hf as name'. bind_ok Hf as claimId.
  destruct (sql_get_claims _ _); [|by simplify_eq].
  bind_ok Hf as address'. bind_ok Hf as txid. bind_ok Hf as nout.
  bind_ok Hf as above. bind_ok Hf as value. bind_ok Hf as encoded.
  bind_ok Hf as hexed.
  set (base := dict_of_pairs _) in Hf.
  assert (∃ tail : pydict → pydict, record = tail base ∧
            ∀ m k, k ≠ lit "claim_sequence" → k ≠ lit "normalized_name" →
                   tail m !! k = m !! k) as (tail & -> & Htail).
  { destruct (claim !! lit "normalized_name"), (claim !! lit "claim_sequence");
      [ bind_ok Hf as nn; simplify_eq; eexists (λ m, <[_ := _]> (<[_ := _]> m))
      | bind_ok Hf as nn; simplify_eq; eexists (λ m, <[_ := _]> (<[_ := _]> m))
      | simplify_eq; eexists (λ m, <[_ := _]> m)
      | simplify_eq; eexists (λ m, <[_ := _]> m) ];
      (split; [reflexivity|]); intros m k ??; by simplify_map_eq. }
  rewrite !Htail by (vm_compute; discriminate).
  subst base. unfold dict_of_pairs; cbn [foldl fst snd].
  repeat split; lookup_key; eauto.
Qed.

Lemma format_claim_demo_both :
  format_claim_from_daemon demo (Some claim_both) PyNone = Ok record_both.
Proof. reflexivity. Qed.

Lemma format_claim_demo_legacy :
  format_claim_from_daemon demo (Some claim_legacy) PyNone = Ok record_legacy.
Proof. reflexivity. Qed.

Lemma record_both_nonempty : record_both ≠ ∅.
Proof.
  intros E.
  assert (Ha : record_both !! lit "amount" = Some (PyInt 5)) by reflexivity.
  rewrite E, lookup_empty in Ha. discriminate Ha.
Qed.

(** C5: whenever normalisation yields a canonical record, each of the four
    aliased fields holds what the claim has under the current name if that
    key is present, otherwise what it has under the legacy alias: [amount]
    before [nAmount], [height] before [nHeight], [effective amount] before
    [nEffectiveAmount], [valid at height] before [nValidAtHeight]. *)
Theorem aliased_fields_current_name_first self claim name record :
  format_claim_from_daemon self (Some claim) name = Ok record →
  record ≠ ∅ →
  first_present claim (lit "amount") (lit "nAmount")
    (record !! lit "amount") ∧
  first_present claim (lit "height") (lit "nHeight")
    (record !! lit "height") ∧
  first_present claim (lit "effective amount") (lit "nEffectiveAmount")
    (record !! lit "effective_amount") ∧
  first_present claim (lit "valid at height") (lit "nValidAtHeight")
    (record !! lit "valid_at_height").
Proof.
  intros Hf Hne.
  destruct (format_claim_fields _ _ _ _ Hf Hne) as (-> & -> & -> & -> & _).
  repeat split; apply get_from_possible_keys_first_present.
Qed.

(** The claim of the demo chain that carries both spellings normalises to the
    values under the current names: 5, 90, 6 and 91, not 7, 80, 8 and 81. *)
Lemma aliased_fields_current_name_first_witness :
  format_claim_from_daemon demo (Some claim_both) PyNone = Ok record_both ∧
  claim_both !! lit "amount" = Some (PyInt 5) ∧
  claim_both !! lit "nAmount" = Some (PyInt 7) ∧
  record_both !! lit "amount" = Some (PyInt 5) ∧
  record_both !! lit "height" = Some (PyInt 90) ∧
  record_both !! lit "effective_amount" = Some (PyInt 6) ∧
  record_both !! lit "valid_at_height" = Some (PyInt 91).
Proof.
  destruct (aliased_fields_current_name_first demo claim_both PyNone
              record_both format_claim_demo_both record_both_nonempty)
    as ((Ha & _) & (Hh & _) & (He & _) & (Hv & _)).
  split; [exact format_claim_demo_both|].
  split; [reflexivity|].
  split; [reflexivity|].
  split; [apply Ha; reflexivity|].
  split; [apply Hh; reflexivity|].
  split; [apply He; reflexivity|].
  apply Hv; reflexivity.
Defined.

(** C6 as stated fails on the code. The normaliser decodes the claim's name
    before it consults the index: a non-empty claim that the index does not
    know, and whose name is the single character U+00FF, raises instead of
    returning the empty record. *)
Lemma unindexed_claim_may_raise :
  truthy (PyDict claim_misnamed) = true ∧
  claim_misnamed !! lit "claimId" = Some (PyStr (lit "e5")) ∧
  sql_get_claims (db demo) (PyStr (lit "e5")) = None ∧
  format_claim_from_daemon demo (Some claim_misnamed) PyNone
    = Raise UnicodeDecodeError ∧
  format_claim_from_daemon demo (Some claim_misnamed) PyNone ≠ Ok ∅.
Proof.
  assert (Hf : format_claim_from_daemon demo (Some claim_misnamed) PyNone
               = Raise UnicodeDecodeError) by reflexivity.
  repeat split; try (reflexivity).
  rewrite Hf. discriminate.
Qed.

(** C6, amended: a non-empty raw claim whose name, when it has one, decodes,
    and whose claim id has no address record in the local index, normalises
    to the empty record, whatever else the claim carries; the outcome is a
    value, not an exception. *)
Theorem unindexed_claim_is_empty self claim name claim_id :
  truthy (PyDict claim) = true →
  name_decodes claim →
  claim !! lit "claimId" = Some claim_id →
  sql_get_claims (db self) claim_id = None →
  format_claim_from_daemon self (Some claim) name = Ok ∅.
Proof.
  intros Hclaim Hname Hid Hindex. unfold format_claim_from_daemon.
  rewrite Hclaim; cbn [negb].
  assert (∃ name', match claim !! lit "name" with
                   | Some raw => PyStr <$> latin1_to_text raw
                   | None => Ok name
                   end = Ok name') as [name' ->].
  { destruct (claim !! lit "name") as [raw|] eqn:Hraw; [|by eexists].
    destruct (Hname raw Hraw) as [text ->]. by eexists. }
  cbn [mbind outcome_bind]. rewrite (getitem_Some _ _ _ Hid).
  cbn [mbind outcome_bind]. by rewrite Hindex.
Qed.

Lemma unindexed_claim_is_empty_witness :
  format_claim_from_daemon demo (Some claim_unindexed) PyNone = Ok ∅.
Proof.
  apply (unindexed_claim_is_empty demo claim_unindexed PyNone
           (PyStr (lit "d4"))).
  - reflexivity.
  - intros raw Hraw. exists (lit "four").
    assert (Hfour : claim_unindexed !! lit "name" = Some (PyStr (lit "four")))
      by reflexivity.
    rewrite Hfour in Hraw. injection Hraw as <-. reflexivity.
  - reflexivity.
  - reflexivity.
Defined.

(** C10: for a non-empty raw claim whose claim id the index knows, a height
    under neither [height] nor [nHeight] leaves the lookup with Python's
    [None], the subtraction from the index height is a type error, and the
    normaliser raises: no record is returned. When everything evaluated
    before the subtraction succeeds, the exception is that [TypeError]. *)
Theorem height_is_required self claim name claim_id info :
  truthy (PyDict claim) = true →
  claim !! lit "claimId" = Some claim_id →
  sql_get_claims (db self) claim_id = Some info →
  claim !! lit "height" = None →
  claim !! lit "nHeight" = None →
  get_from_possible_keys claim [lit "height"; lit "nHeight"] = PyNone ∧
  int_sub (db_height (db self)) PyNone = Raise TypeError ∧
  (∃ e, format_claim_from_daemon self (Some claim) name = Raise e) ∧
  (name_decodes claim →
   (∃ text, bytes_decode (address info) = Ok text) →
   is_Some (claim !! lit "txid") →
   is_Some (claim !! lit "n") →
   format_claim_from_daemon self (Some claim) name = Raise TypeError).
Proof.
  intros Hclaim Hid Hindex Hh Hn.
  assert (Hnone : get_from_possible_keys claim [lit "height"; lit "nHeight"]
                  = PyNone).
  { cbn [get_from_possible_keys]. by rewrite Hh, Hn. }
  split; [exact Hnone|]. split; [reflexivity|].
  unfold format_claim_from_daemon.
  rewrite Hclaim, Hnone; cbn [negb].
  split.
  - destruct (match claim !! lit "name" with
              | Some raw => PyStr <$> latin1_to_text raw
              | None => Ok name
              end) as [name'|e]; [|by exists e].
    cbn [mbind outcome_bind]. rewrite (getitem_Some _ _ _ Hid).
    cbn [mbind outcome_bind]. rewrite Hindex.
    destruct (bytes_decode (address info)) as [text|e]; [|by exists e].
    cbn [mbind outcome_bind].
    destruct (getitem claim (lit "txid")) as [txid|e]; [|by exists e].
    cbn [mbind outcome_bind].
    destruct (getitem claim (lit "n")) as [nout|e]; [|by exists e].
    by exists TypeError.
  - intros Hname [text Haddress] [txid Htxid] [nout Hnout].
    assert (∃ name', match claim !! lit "name" with
                     | Some raw => PyStr <$> latin1_to_text raw
                     | None => Ok name
                     end = Ok name') as [name' ->].
    { destruct (claim !! lit "name") as [raw|] eqn:Hraw; [|by eexists].
      destruct (Hname raw Hraw) as [text' ->]. by eexists. }
    cbn [mbind outcome_bind]. rewrite (getitem_Some _ _ _ Hid).
    cbn [mbind outcome_bind]. rewrite Hindex, Haddress.
    cbn [mbind outcome_bind].
    by rewrite (getitem_Some _ _ _ Htxid), (getitem_Some _ _ _ Hnout).
Qed.

Lemma height_is_required_witness :
  claim_no_height !! lit "height" = None ∧
  claim_no_height !! lit "nHeight" = None ∧
  format_claim_from_daemon demo (Some claim_no_height) PyNone
    = Raise TypeError.
Proof.
  assert (Hh : claim_no_height !! lit "height" = None)
    by reflexivity.
  assert (Hn : claim_no_height !! lit "nHeight" = None)
    by reflexivity.
  split; [exact Hh|]. split; [exact Hn|].
  apply (height_is_required demo claim_no_height PyNone (PyStr (lit "f6"))
           {| address := ascii_bytes "bF" |}).
  - reflexivity.
  - reflexivity.
  - reflexivity.
  - exact Hh.
  - exact Hn.
  - intros raw Hraw. exists (lit "six").
    assert (Hsix : claim_no_height !! lit "name" = Some (PyStr (lit "six")))
      by reflexivity.
    rewrite Hsix in Hraw. injection Hraw as <-. reflexivity.
  - exists (lit "bF"). reflexivity.
  - eexists. reflexivity.
  - eexists. reflexivity.
Defined.

(** ** Lists, [mapM] and [dict] *)

Section lists.
Context {A B : Type}.

Lemma mapM_Ok_Forall2 (f : A → outcome B) l rs :
  mapM f l = Ok rs → Forall2 (λ x r, f x = Ok r) l rs.
Proof.
  revert rs. induction l as [|x l IH]; intros rs Hm; cbn in Hm.
  - injection Hm as <-. constructor.
  - destruct (f x) as [r|] eqn:Hx; cbn in Hm; [|discriminate Hm].
    destruct (mapM f l) as [rs'|]; cbn in Hm; [|discriminate Hm].
    injection Hm as <-. constructor; auto.
Qed.

Context (P : A → Prop) `{!∀ x, Decision (P x)}.

(** What [filter] keeps at position [i] stood at position [i] or later. *)
Lemma filter_lookup_ge (l : list A) i y :
  filter P l !! i = Some y → ∃ j, (i ≤ j)%nat ∧ l !! j = Some y.
Proof.
  revert i. induction l as [|a l IH]; intros i Hy; [done|].
  destruct (decide (P a)) as [Ha|Ha].
  - rewrite filter_cons_True in Hy by done.
    destruct i as [|i]; [exists 0%nat; split; [lia|done]|].
    destruct (IH i Hy) as (j & ? & ?). exists (S j). split; [lia|done].
  - rewrite filter_cons_False in Hy by done.
    destruct (IH i Hy) as (j & ? & ?). exists (S j). split; [lia|done].
Qed.

(** From a dropped position on, it stood strictly later. *)
Lemma filter_lookup_gt (l : list A) k x i y :
  l !! k = Some x → ¬ P x → (k ≤ i)%nat →
  filter P l !! i = Some y → ∃ j, (i < j)%nat ∧ l !! j = Some y.
Proof.
  revert k i. induction l as [|a l IH]; intros k i Hk Hx Hki Hy; [done|].
  destruct k as [|k].
  - injection Hk as ->. rewrite filter_cons_False in Hy by done.
    destruct (filter_lookup_ge l i y Hy) as (j & ? & ?).
    exists (S j). split; [lia|done].
  - destruct (decide (P a)) as [Ha|Ha].
    + rewrite filter_cons_True in Hy by done.
      destruct i as [|i]; [lia|].
      destruct (IH k i Hk Hx ltac:(lia) Hy) as (j & ? & ?).
      exists (S j). split; [lia|done].
    + rewrite filter_cons_False in Hy by done.
      destruct (IH k i Hk Hx ltac:(lia) Hy) as (j & ? & ?).
      exists (S j). split; [lia|done].
Qed.

Lemma filter_all (l : list A) : Forall P l → filter P l = l.
Proof.
  induction 1 as [|a l Ha _ IH]; [done|].
  by rewrite filter_cons_True, IH.
Qed.

End lists.

Section dict_of_pairs.
Context {V : Type}.
Implicit Types (pairs : list (pystr * V)) (k : pystr) (v : V).

Lemma dict_of_pairs_snoc pairs k v :
  dict_of_pairs (pairs ++ [(k, v)]) = <[k := v]> (dict_of_pairs pairs).
Proof. unfold dict_of_pairs. by rewrite foldl_snoc. Qed.

(** The last pair with a key decides what the key maps to. *)
Lemma dict_of_pairs_lookup_last pairs i k v :
  pairs !! i = Some (k, v) →
  (∀ j v', (i < j)%nat → pairs !! j ≠ Some (k, v')) →
  dict_of_pairs pairs !! k = Some v.
Proof.
  revert i. induction pairs as [|[k' v'] pairs IH] using rev_ind;
    intros i Hi Hlast; [done|].
  rewrite dict_of_pairs_snoc.
  destruct (decide (i = length pairs)) as [->|Hne].
  - rewrite list_lookup_middle in Hi by done. injection Hi as -> ->.
    by rewrite lookup_insert_eq.
  - assert (i < length pairs)%nat.
    { apply lookup_lt_Some in Hi. rewrite length_app in Hi. cbn in Hi. lia. }
    rewrite lookup_app_l in Hi by done.
    rewrite lookup_insert_ne.
    + apply (IH i Hi). intros j w Hj Hjw.
      apply (Hlast j w Hj). by rewrite lookup_app_l by by eapply lookup_lt_Some.
    + intros ->. apply (Hlast (length pairs) v'); [done|].
      by rewrite list_lookup_middle.
Qed.

Lemma dict_of_pairs_lookup_None pairs k :
  (∀ j v, pairs !! j ≠ Some (k, v)) → dict_of_pairs pairs !! k = None.
Proof.
  induction pairs as [|[k' v'] pairs IH] using rev_ind; intros Hk; [done|].
  rewrite dict_of_pairs_snoc, lookup_insert_ne.
  - apply IH. intros j v Hj. apply (Hk j v).
    by rewrite lookup_app_l by by eapply lookup_lt_Some.
  - intros ->. apply (Hk (length pairs) v'). by rewrite list_lookup_middle.
Qed.

End dict_of_pairs.

(** ** batched_formatted_claims_from_daemon *)

Lemma format_each_surviving self claims result :
  format_each self claims result
  = (result ++.) <$> mapM (normalize self) (surviving claims).
Proof.
  revert result. induction claims as [|claim claims IH]; intros result.
  - cbn. by rewrite app_nil_r.
  - cbn [format_each]. unfold surviving.
    destruct (has_value claim) eqn:Hv.
    + rewrite filter_cons_True by (cbn; by rewrite Hv).
      cbn [mapM]. fold (normalize self claim).
      destruct (normalize self claim) as [record|]; [|done].
      cbn [mbind outcome_bind]. rewrite IH. unfold surviving.
      destruct (mapM _ _) as [records|]; [|done].
      cbn. by rewrite <- app_assoc.
    + rewrite filter_cons_False by (cbn; rewrite Hv; tauto).
      apply IH.
Qed.

Lemma has_value_inv claim :
  has_value claim = true →
  ∃ d v, claim = Some d ∧ d !! lit "value" = Some v ∧ truthy v = true.
Proof.
  destruct claim as [d|]; [|discriminate]. cbn [has_value]. unfold dict_get.
  intros Hv. apply andb_prop in Hv as [_ Hv].
  destruct (d !! lit "value") as [v|] eqn:Hd; [|done]. cbn in Hv. by exists d, v.
Qed.

Lemma has_value_without_value claim :
  claim = None ∨ claim = Some ∅ ∨ (∃ d, claim = Some d ∧ d !! lit "value" = None) →
  has_value claim = false.
Proof.
  intros [->|[->|(d & -> & Hd)]]; [done|done|].
  cbn [has_value]. unfold dict_get. rewrite Hd. cbn. apply andb_false_r.
Qed.

Lemma normalize_keeps_value self claim record :
  normalize self claim = Ok record → record = ∅ ∨ is_Some (record !! lit "value").
Proof.
  intros Hf. destruct (decide (record = ∅)) as [|Hne]; [by left|right].
  destruct claim as [claim|]; [|cbn in Hf; congruence].
  by destruct (format_claim_fields _ _ _ _ Hf Hne) as (_ & _ & _ & _ & ?).
Qed.

Lemma Forall2_with_left {A B} (Q : A → Prop) (R : A → B → Prop) l k :
  Forall Q l → Forall2 R l k → Forall2 (λ x y, Q x ∧ R x y) l k.
Proof.
  intros HQ HR. induction HR as [|x y l k Hxy _ IH]; [constructor|].
  apply Forall_cons in HQ as [? ?]. constructor; auto.
Qed.

Lemma batched_as_mapM self claim_ids claims :
  getclaimsbyids (daemon self) claim_ids = Ok claims →
  batched_formatted_claims_from_daemon self claim_ids
  = ([DaemonRequest "getclaimsbyids" (PyStr <$> claim_ids)],
     mapM (normalize self) (surviving claims)).
Proof.
  intros Hd. unfold batched_formatted_claims_from_daemon, await, call.
  rewrite Hd. cbn [mbind io_bind]. rewrite format_each_surviving.
  destruct (mapM _ _); reflexivity.
Qed.

(** C7: the batch path hands the normaliser exactly the claims that are
    non-empty and carry a true [value], in the daemon's order. A claim that
    is absent, empty or without a [value] key is not among them, and every
    record returned is the normalisation of a daemon claim that has a
    [value]: it is empty (a claim the index does not know) or carries a
    [value] itself. *)
Theorem valueless_claims_are_dropped self claim_ids claims :
  getclaimsbyids (daemon self) claim_ids = Ok claims →
  batched_formatted_claims_from_daemon self claim_ids
  = ([DaemonRequest "getclaimsbyids" (PyStr <$> claim_ids)],
     mapM (normalize self) (surviving claims)) ∧
  (∀ claim,
     claim = None ∨ claim = Some ∅ ∨
       (∃ d, claim = Some d ∧ d !! lit "value" = None) →
     claim ∉ surviving claims) ∧
  (∀ records,
     mapM (normalize self) (surviving claims) = Ok records →
     Forall2 (λ claim record,
                claim ∈ claims ∧
                (∃ d v, claim = Some d ∧ d !! lit "value" = Some v ∧
                        truthy v = true) ∧
                normalize self claim = Ok record ∧
                (record = ∅ ∨ is_Some (record !! lit "value")))
             (surviving claims) records).
Proof.
  intros Hd. split; [by apply batched_as_mapM|]. split.
  - intros claim Hc [Hv _]%list_elem_of_filter.
    rewrite (has_value_without_value _ Hc) in Hv. done.
  - intros records Hm. apply mapM_Ok_Forall2 in Hm.
    eapply Forall2_impl;
      [apply (Forall2_with_left (λ claim, claim ∈ surviving claims)), Hm|].
    + by apply Forall_forall.
    + intros claim record [[Hv Hin]%list_elem_of_filter Hn].
      split; [done|]. split; [apply has_value_inv; by destruct (has_value claim)|].
      split; [done|]. by eapply normalize_keeps_value.
Qed.

Lemma batched_demo :
  mapM (normalize demo)
       (surviving [Some claim_both; Some claim_bare; Some claim_legacy])
  = Ok [record_both; record_legacy].
Proof. reflexivity. Qed.

(** Asked for three claims of which the second has no [value], the batch path
    returns the records of the first and the third. *)
Lemma valueless_claims_are_dropped_witness :
  batched_formatted_claims_from_daemon demo [lit "a1"; lit "b2"; lit "c3"]
  = ([DaemonRequest "getclaimsbyids"
        [PyStr (lit "a1"); PyStr (lit "b2"); PyStr (lit "c3")]],
     Ok [record_both; record_legacy]) ∧
  claim_bare !! lit "value" = None ∧
  Some claim_bare ∉ surviving [Some claim_both; Some claim_bare; Some claim_legacy].
Proof.
  assert (Hd : getclaimsbyids (daemon demo) [lit "a1"; lit "b2"; lit "c3"]
               = Ok [Some claim_both; Some claim_bare; Some claim_legacy])
    by reflexivity.
  assert (Hb : claim_bare !! lit "value" = None) by reflexivity.
  destruct (valueless_claims_are_dropped demo _ _ Hd) as (Hrun & Hdrop & _).
  split; [by rewrite Hrun, batched_demo|]. split; [exact Hb|].
  apply Hdrop. right; right. exists claim_bare. split; [reflexivity|exact Hb].
Defined.

(** ** claimtrie_getclaimsbyids *)

Lemma getclaimsbyids_as_zip self claim_ids claims :
  getclaimsbyids (daemon self) claim_ids = Ok claims →
  claimtrie_getclaimsbyids self claim_ids
  = ([DaemonRequest "getclaimsbyids" (PyStr <$> claim_ids)],
     (λ records, dict_of_pairs (zip claim_ids records))
       <$> mapM (normalize self) (surviving claims)).
Proof.
  intros Hd. unfold claimtrie_getclaimsbyids.
  rewrite (batched_as_mapM _ _ _ Hd). cbn [mbind io_bind].
  destruct (mapM _ _); reflexivity.
Qed.

(** A pair of the zipped list, when the id occurs at no later position,
    is an entry of the mapping. *)
Lemma zipped_entry {V} (ids : list pystr) (records : list V) i id record :
  last_at ids i id → records !! i = Some record →
  dict_of_pairs (zip ids records) !! id = Some record.
Proof.
  intros [Hi Hlast] Hr. apply (dict_of_pairs_lookup_last _ i).
  - apply lookup_zip_with_Some. by exists id, record.
  - intros j v' Hj (id' & v'' & [= <- <-] & Hid & _)%lookup_zip_with_Some.
    by apply (Hlast j).
Qed.

(** C1: the mapping returned is [dict(zip(claim_ids, records))], the ids as
    given against the normalised survivors of the filter, both in order.
    When the daemon's claims all survive, the id at a position maps to the
    normalisation of the claim at that position. When the claim at position
    [k] is dropped, the id at a position from [k] on maps to the record of a
    claim that stood at a strictly later position, and, the daemon having
    sent no more claims than ids, the ids found only past the end of the
    records are not in the mapping. An id given twice is taken at its last
    position, as [dict] keeps the last pair. *)
Theorem getclaimsbyids_zips_ids_with_survivors self claim_ids claims :
  getclaimsbyids (daemon self) claim_ids = Ok claims →
  claimtrie_getclaimsbyids self claim_ids
  = ([DaemonRequest "getclaimsbyids" (PyStr <$> claim_ids)],
     (λ records, dict_of_pairs (zip claim_ids records))
       <$> mapM (normalize self) (surviving claims)) ∧
  ∀ records,
    mapM (normalize self) (surviving claims) = Ok records →
    (Forall (λ claim, has_value claim) claims →
     ∀ i id claim,
       last_at claim_ids i id → claims !! i = Some claim →
       ∃ record,
         normalize self claim = Ok record ∧
         dict_of_pairs (zip claim_ids records) !! id = Some record) ∧
    (∀ k dropped,
       claims !! k = Some dropped → has_value dropped = false →
       (∀ i id record,
          (k ≤ i)%nat → last_at claim_ids i id → records !! i = Some record →
          dict_of_pairs (zip claim_ids records) !! id = Some record ∧
          ∃ j claim,
            (i < j)%nat ∧ claims !! j = Some claim ∧
            normalize self claim = Ok record) ∧
       ((length claims ≤ length claim_ids)%nat →
        (length records < length claim_ids)%nat ∧
        ∀ id,
          (∀ j, claim_ids !! j = Some id → (length records ≤ j)%nat) →
          dict_of_pairs (zip claim_ids records) !! id = None)).
Proof.
  intros Hd. split; [by apply getclaimsbyids_as_zip|].
  intros records Hm. apply mapM_Ok_Forall2 in Hm. split.
  - intros Hall i id claim Hlast Hc.
    unfold surviving in Hm. rewrite filter_all in Hm by done.
    destruct (Forall2_lookup_l _ _ _ _ _ Hm Hc) as (record & Hr & Hn).
    exists record. split; [done|]. by eapply zipped_entry.
  - intros k dropped Hk Hdropped.
    assert (Hnot : ¬ has_value dropped) by (rewrite Hdropped; tauto).
    split.
    + intros i id record Hki Hlast Hr. split; [by eapply zipped_entry|].
      destruct (Forall2_lookup_r _ _ _ _ _ Hm Hr) as (claim & Hs & Hn).
      destruct (filter_lookup_gt _ claims k dropped i claim Hk Hnot Hki Hs)
        as (j & Hj & Hc).
      by exists j, claim.
    + intros Hlen.
      assert (Hshort : (length records < length claims)%nat).
      { rewrite <- (Forall2_length _ _ _ Hm).
        apply (length_filter_lt _ _ dropped); [|done].
        by eapply list_elem_of_lookup_2. }
      split; [lia|]. intros id Hlate.
      apply dict_of_pairs_lookup_None.
      intros j v (id' & v' & [= <- <-] & Hid & Hv)%lookup_zip_with_Some.
      apply lookup_lt_Some in Hv. specialize (Hlate j Hid). lia.
Qed.

(** Asked for [a1] and [c3] the demo server pairs each id with its own
    record; asked for [a1], [b2] and [c3], where [b2] has no [value], it
    returns the record of [c3] under [b2] and nothing under [c3]. *)
Lemma getclaimsbyids_zips_ids_with_survivors_witness :
  (claimtrie_getclaimsbyids demo [lit "a1"; lit "c3"]).2
    = Ok (dict_of_pairs [(lit "a1", record_both); (lit "c3", record_legacy)]) ∧
  (claimtrie_getclaimsbyids demo [lit "a1"; lit "b2"; lit "c3"]).2
    = Ok (dict_of_pairs [(lit "a1", record_both); (lit "b2", record_legacy)]) ∧
  dict_of_pairs (zip [lit "a1"; lit "b2"; lit "c3"] [record_both; record_legacy])
    !! lit "b2" = Some record_legacy ∧
  normalize demo (Some claim_legacy) = Ok record_legacy ∧
  dict_of_pairs (zip [lit "a1"; lit "b2"; lit "c3"] [record_both; record_legacy])
    !! lit "c3" = None.
Proof.
  assert (Hd2 : getclaimsbyids (daemon demo) [lit "a1"; lit "c3"]
                = Ok [Some claim_both; Some claim_legacy])
    by reflexivity.
  assert (Hd3 : getclaimsbyids (daemon demo) [lit "a1"; lit "b2"; lit "c3"]
                = Ok [Some claim_both; Some claim_bare; Some claim_legacy])
    by reflexivity.
  assert (Hm2 : mapM (normalize demo)
                  (surviving [Some claim_both; Some claim_legacy])
                = Ok [record_both; record_legacy])
    by reflexivity.
  destruct (getclaimsbyids_zips_ids_with_survivors demo _ _ Hd2) as [Hrun2 _].
  destruct (getclaimsbyids_zips_ids_with_survivors demo _ _ Hd3)
    as [Hrun3 Hrest].
  destruct (Hrest _ batched_demo) as [_ Hmis].
  destruct (Hmis 1%nat (Some claim_bare) eq_refl ltac:(reflexivity))
    as [Hshift Htrail].
  split; [by rewrite Hrun2, Hm2|].
  split; [by rewrite Hrun3, batched_demo|].
  destruct (Hshift 1%nat (lit "b2") record_legacy) as [Hb2 _]; [lia| |done|].
  { split; [reflexivity|].
    intros [|[|[|j]]] Hj Hc; try lia; vm_compute in Hc; discriminate Hc. }
  split; [exact Hb2|]. split; [exact format_claim_demo_legacy|].
  apply Htrail; [cbn [length]; lia|].
  intros [|[|j]] Hj; cbn [length]; [| |lia];
    injection Hj as Hj; vm_compute in Hj; discriminate Hj.
Defined.

(** ** The hexadecimal decoder of the demo server *)

Lemma by_pairs {A} (P : list A → Prop) :
  P [] → (∀ x, P [x]) → (∀ x y l, P l → P (x :: y :: l)) → ∀ l, P l.
Proof.
  intros Hnil Hone Htwo l.
  enough (P l ∧ ∀ x, P (x :: l)) as [? _] by done.
  induction l as [|y l [IH1 IH2]]; [by split|].
  split; [apply IH2|]. intros x. by apply Htwo.
Qed.

Lemma hex_value_lt c h : hex_value c = Some h → (h < 16)%N.
Proof.
  unfold hex_value, in_range.
  repeat case_match; intros [= <-];
    repeat match goal with
           | E : _ && _ = true |- _ =>
               apply andb_prop in E as [?%N.leb_le ?%N.leb_le]
           end; lia.
Qed.

Lemma hex_pairs_Some s b :
  hex_pairs s = Some b →
  length s = (2 * length b)%nat ∧ Forall hex_digit s.
Proof.
  revert b. induction s as [| |hi lo s IH] using by_pairs; intros b Hb.
  - injection Hb as <-. by split.
  - discriminate Hb.
  - cbn [hex_pairs] in Hb.
    destruct (hex_value hi) as [h|] eqn:Hhi; [|discriminate Hb].
    destruct (hex_value lo) as [l|] eqn:Hlo; [|discriminate Hb].
    cbn [mbind option_bind] in Hb.
    destruct (Byte.of_N _) as [x|]; [|discriminate Hb].
    cbn [mbind option_bind] in Hb.
    destruct (hex_pairs s) as [b'|]; [|discriminate Hb].
    injection Hb as <-. destruct (IH b' eq_refl) as [Hlen Hall].
    split; [cbn [length]; lia|].
    repeat constructor; unfold hex_digit; by rewrite ?Hhi, ?Hlo.
Qed.

Lemma hex_pairs_is_Some s n :
  length s = (2 * n)%nat → Forall hex_digit s →
  ∃ b, hex_pairs s = Some b ∧ length b = n.
Proof.
  revert n. induction s as [| |hi lo s IH] using by_pairs; intros n Hlen Hall.
  - exists []. split; [done|]. cbn [length] in *. lia.
  - cbn [length] in Hlen. lia.
  - apply Forall_cons in Hall as [[h Hhi] Hall].
    apply Forall_cons in Hall as [[l Hlo] Hall].
    destruct n as [|n]; [cbn [length] in Hlen; lia|].
    destruct (IH n) as (b & Hb & Hn); [cbn [length] in Hlen; lia|done|].
    destruct (Byte.of_N (16 * h + l)) as [x|] eqn:Hx.
    + exists (x :: b). cbn [hex_pairs]. rewrite Hhi, Hlo.
      cbn [mbind option_bind]. rewrite Hx. cbn [mbind option_bind].
      rewrite Hb. split; [done|]. cbn [length]. lia.
    + apply Byte.of_N_None_iff in Hx.
      apply hex_value_lt in Hhi, Hlo. lia.
Qed.

(** Under this decoder, to decode to exactly [n] bytes is to consist of
    exactly [2 n] hexadecimal digits: 64 for a transaction hash, 40 for a
    claim id. *)
Lemma decode_hex_bytes s n :
  (∃ b, decode_hex (PyStr s) = Ok b ∧ length b = n)
  ↔ length s = (2 * n)%nat ∧ Forall hex_digit s.
Proof.
  unfold decode_hex. split.
  - intros (b & Hb & <-).
    destruct (hex_pairs s) as [b'|] eqn:Hs; [|discriminate Hb].
    injection Hb as ->. by apply hex_pairs_Some.
  - intros [Hlen Hall].
    destruct (hex_pairs_is_Some s n Hlen Hall) as (b & -> & Hb). by exists b.
Qed.

(** ** The handlers that validate a hash *)

Lemma truthy_dict_lookup (d : pydict) key :
  is_Some (d !! key) → truthy (PyDict d) = true.
Proof.
  intros Hk. cbn [truthy]. rewrite bool_decide_eq_false_2; [done|].
  intros Hd. apply elem_of_dom in Hk. rewrite Hd in Hk. set_solver.
Qed.

Section handlers.
Context `{Imports}.

Lemma assert_tx_hash_accepts value b :
  hex_to_bytes value = Ok b → length b = 32%nat → assert_tx_hash value = Ok ().
Proof.
  intros Hb Hlen. unfold assert_tx_hash. rewrite Hb.
  by rewrite bool_decide_eq_true_2.
Qed.

Lemma assert_tx_hash_rejects value :
  (∀ b, hex_to_bytes value = Ok b → length b ≠ 32%nat) →
  assert_tx_hash value
  = Raise (RPCError 1 (FString value (lit " should be a transaction hash"))).
Proof.
  intros Hbad. unfold assert_tx_hash.
  destruct (hex_to_bytes value) as [b|e]; [|done].
  by rewrite bool_decide_eq_false_2 by by apply Hbad.
Qed.

Lemma assert_claim_id_accepts value b :
  hex_to_bytes value = Ok b → length b = 20%nat → assert_claim_id value = Ok ().
Proof.
  intros Hb Hlen. unfold assert_claim_id. rewrite Hb.
  by rewrite bool_decide_eq_true_2.
Qed.

Lemma assert_claim_id_rejects value :
  (∀ b, hex_to_bytes value = Ok b → length b ≠ 20%nat) →
  assert_claim_id value
  = Raise (RPCError 1 (FString value (lit " should be a claim id hash"))).
Proof.
  intros Hbad. unfold assert_claim_id.
  destruct (hex_to_bytes value) as [b|e]; [|done].
  by rewrite bool_decide_eq_false_2 by by apply Hbad.
Qed.

(** C2: for a hash that passes validation, the answer follows the daemon's
    reply. A reply with [hex] and an integer [confirmations] gives the index
    height minus the confirmations plus one; a reply with [hex] and no
    [confirmations] key gives -1; no reply, or one without [hex], gives
    [None]. The daemon is asked once, for the verbose transaction. *)
Theorem transaction_get_height_cases self tx_hash info :
  assert_tx_hash tx_hash = Ok () →
  getrawtransaction (daemon self) tx_hash true = Ok info →
  (∀ d c,
     info = Some d → is_Some (d !! lit "hex") →
     d !! lit "confirmations" = Some (PyInt c) →
     transaction_get_height self tx_hash
     = ([DaemonRequest "getrawtransaction" [tx_hash; PyBool true]],
        Ok (PyInt (db_height (db self) - c + 1)))) ∧
  (∀ d,
     info = Some d → is_Some (d !! lit "hex") →
     d !! lit "confirmations" = None →
     transaction_get_height self tx_hash
     = ([DaemonRequest "getrawtransaction" [tx_hash; PyBool true]],
        Ok (PyInt (-1)))) ∧
  (info = None ∨ (∃ d, info = Some d ∧ d !! lit "hex" = None) →
   transaction_get_height self tx_hash
   = ([DaemonRequest "getrawtransaction" [tx_hash; PyBool true]], Ok PyNone)).
Proof.
  intros Hvalid Hreply. unfold transaction_get_height, call, await.
  rewrite Hvalid, Hreply. cbn [mbind io_bind app].
  split; [|split].
  - intros d c -> Hhex Hconf.
    rewrite (truthy_dict_lookup _ _ Hhex).
    rewrite !bool_decide_eq_true_2 by (done || by rewrite Hconf).
    cbn [andb mbind io_bind app]. by rewrite (getitem_Some _ _ _ Hconf).
  - intros d -> Hhex Hconf.
    rewrite (truthy_dict_lookup _ _ Hhex).
    rewrite (bool_decide_eq_true_2 _ Hhex).
    rewrite bool_decide_eq_false_2 by (rewrite Hconf; by intros [? ?]).
    reflexivity.
  - intros [->|(d & -> & Hhex)]; [reflexivity|].
    rewrite bool_decide_eq_false_2 by (rewrite Hhex; by intros [? ?]).
    by rewrite !andb_false_r.
Qed.

(** C3: a value that does not decode to 32 bytes, because decoding fails or
    gives another length, is refused with [RPCError] of code 1 whose message
    is the value followed by " should be a transaction hash", and nothing is
    sent to the daemon; a value that decodes to 32 bytes passes validation
    and the daemon is asked. *)
Theorem transaction_get_height_checks_hash self tx_hash :
  ((∀ b, hex_to_bytes tx_hash = Ok b → length b ≠ 32%nat) →
   transaction_get_height self tx_hash
   = ([], Raise (RPCError 1
                   (FString tx_hash (lit " should be a transaction hash")))) ∧
   ∀ s, tx_hash = PyStr s →
        message_text (FString tx_hash (lit " should be a transaction hash"))
        = Some (s ++ lit " should be a transaction hash")) ∧
  (∀ b, hex_to_bytes tx_hash = Ok b → length b = 32%nat →
        assert_tx_hash tx_hash = Ok () ∧
        ∃ rest, (transaction_get_height self tx_hash).1
                = DaemonRequest "getrawtransaction" [tx_hash; PyBool true]
                  :: rest).
Proof.
  split.
  - intros Hbad. split; [|by intros s ->].
    unfold transaction_get_height, call.
    by rewrite (assert_tx_hash_rejects _ Hbad).
  - intros b Hb Hlen.
    pose proof (assert_tx_hash_accepts _ _ Hb Hlen) as Hvalid.
    split; [done|]. unfold transaction_get_height, call, await.
    rewrite Hvalid. cbn [mbind io_bind app].
    destruct (getrawtransaction _ _ _) as [info|e]; [|by eexists].
    destruct (match info with Some _ => _ | None => _ end) as [t r].
    by eexists.
Qed.

(** C4: when the criteria carry a [claim_id] that does not decode to 20
    bytes, the search is refused with [RPCError] of code 1 and nothing is
    submitted to the query executor; criteria without that key are submitted
    as they are, and so are criteria whose [claim_id] decodes to 20 bytes. *)
Theorem search_checks_claim_id self kwargs :
  (∀ claim_id,
     kwargs !! lit "claim_id" = Some claim_id →
     (∀ b, hex_to_bytes claim_id = Ok b → length b ≠ 20%nat) →
     claimtrie_search self kwargs
     = ([], Raise (RPCError 1
                     (FString claim_id (lit " should be a claim id hash"))))) ∧
  (kwargs !! lit "claim_id" = None →
   claimtrie_search self kwargs
   = ([ExecutorSubmit "reader.search_to_bytes" (PyDict kwargs)],
      found ← search_to_bytes kwargs;
      PyStr <$> bytes_decode (b64encode found))) ∧
  (∀ claim_id b,
     kwargs !! lit "claim_id" = Some claim_id →
     hex_to_bytes claim_id = Ok b → length b = 20%nat →
     claimtrie_search self kwargs
     = ([ExecutorSubmit "reader.search_to_bytes" (PyDict kwargs)],
        found ← search_to_bytes kwargs;
        PyStr <$> bytes_decode (b64encode found))).
Proof.
  assert (Hrun : (([], Ok ()) : io ()) ≫= (λ _,
            await (ExecutorSubmit "reader.search_to_bytes" (PyDict kwargs))
                  (search_to_bytes kwargs)
            ≫= λ found, PyStr <$> call (bytes_decode (b64encode found)))
          = ([ExecutorSubmit "reader.search_to_bytes" (PyDict kwargs)],
             found ← search_to_bytes kwargs;
             PyStr <$> bytes_decode (b64encode found))).
  { unfold await, call. cbn [mbind io_bind app].
    destruct (search_to_bytes kwargs) as [found|e]; [|done].
    cbn [mbind outcome_bind fmap io_fmap fst snd app]. reflexivity. }
  split; [|split].
  - intros claim_id Hk Hbad. unfold claimtrie_search, call. rewrite Hk.
    by rewrite (assert_claim_id_rejects _ Hbad).
  - intros Hk. unfold claimtrie_search. rewrite Hk. exact Hrun.
  - intros claim_id b Hk Hb Hlen. unfold claimtrie_search, call. rewrite Hk.
    rewrite (assert_claim_id_accepts _ _ Hb Hlen). exact Hrun.
Qed.

End handlers.

(** At index height 100 the demo daemon knows one transaction with three
    confirmations, one in the mempool, and nothing of a third. *)
Lemma transaction_get_height_cases_witness :
  @transaction_get_height demo_imports demo (PyStr tx_confirmed)
  = ([DaemonRequest "getrawtransaction" [PyStr tx_confirmed; PyBool true]],
     Ok (PyInt 98)) ∧
  @transaction_get_height demo_imports demo (PyStr tx_mempool)
  = ([DaemonRequest "getrawtransaction" [PyStr tx_mempool; PyBool true]],
     Ok (PyInt (-1))) ∧
  @transaction_get_height demo_imports demo (PyStr tx_unknown)
  = ([DaemonRequest "getrawtransaction" [PyStr tx_unknown; PyBool true]],
     Ok PyNone).
Proof.
  destruct (@transaction_get_height_cases demo_imports demo
              (PyStr tx_confirmed) (Some reply_confirmed) eq_refl eq_refl)
    as (Hconfirmed & _ & _).
  destruct (@transaction_get_height_cases demo_imports demo
              (PyStr tx_mempool) (Some reply_mempool) eq_refl eq_refl)
    as (_ & Hmempool & _).
  destruct (@transaction_get_height_cases demo_imports demo
              (PyStr tx_unknown) None eq_refl eq_refl)
    as (_ & _ & Hunknown).
  split; [|split].
  - apply (Hconfirmed reply_confirmed 3 eq_refl); [eexists|]; reflexivity.
  - apply (Hmempool reply_mempool eq_refl); [eexists|]; reflexivity.
  - apply Hunknown. by left.
Defined.

(** A hash of 62 hexadecimal digits decodes to 31 bytes and is refused
    before the daemon is asked; one of 64 digits passes. *)
Lemma transaction_get_height_checks_hash_witness :
  @transaction_get_height demo_imports demo (PyStr tx_short)
  = ([], Raise (RPCError 1 (FString (PyStr tx_short)
                              (lit " should be a transaction hash")))) ∧
  @assert_tx_hash demo_imports (PyStr tx_confirmed) = Ok ().
Proof.
  destruct (@transaction_get_height_checks_hash demo_imports demo
              (PyStr tx_short)) as [Hshort _].
  destruct (@transaction_get_height_checks_hash demo_imports demo
              (PyStr tx_confirmed)) as [_ Hfull].
  split.
  - apply Hshort. intros b Hb. vm_compute in Hb. injection Hb as <-.
    cbn [length]. lia.
  - destruct (decode_hex (PyStr tx_confirmed)) as [b|] eqn:Hb;
      [|vm_compute in Hb; discriminate Hb].
    apply (Hfull b Hb). vm_compute in Hb. injection Hb as <-. reflexivity.
Defined.

(** Criteria whose claim id is "abc" are refused and nothing reaches the
    workers; empty criteria are submitted, and the worker's three bytes come
    back base64-encoded. *)
Lemma search_checks_claim_id_witness :
  @claimtrie_search demo_imports demo criteria_bad_id
  = ([], Raise (RPCError 1 (FString (PyStr (lit "abc"))
                              (lit " should be a claim id hash")))) ∧
  @claimtrie_search demo_imports demo ∅
  = ([ExecutorSubmit "reader.search_to_bytes" (PyDict ∅)],
     Ok (PyStr (lit "TWFu"))).
Proof.
  destruct (@search_checks_claim_id demo_imports demo criteria_bad_id)
    as (Hbad & _ & _).
  destruct (@search_checks_claim_id demo_imports demo ∅) as (_ & Hnone & _).
  split.
  - apply (Hbad (PyStr (lit "abc"))); [reflexivity|].
    intros b Hb. vm_compute in Hb. discriminate Hb.
  - rewrite Hnone by reflexivity. reflexivity.
Defined.

(** ** LBRYSessionManager.start_other *)

(** C8: the three configurations. Zero workers configured: one worker, a
    thread of the server's process. A positive count [n]: [n] workers, each
    a process of its own. No count: [max(cores, 4)] worker processes. Every
    worker is initialised by [reader.initializer] with the index file
    ['claims.db'] and the network of the configured coin. *)
Theorem start_other_cases `{Imports} (self : LBRYSessionManager) :
  (max_query_workers (env self) = Some 0 →
   ∃ executor,
     start_other self
     = Ok {| env := env self; query_executor := Some executor |} ∧
     executor = ThreadPoolExecutor 1 reader_initializer
                  (lit "claims.db", coin_NET (env self)) ∧
     workers executor
     = [{| in_process := true; index_path := lit "claims.db";
           network := coin_NET (env self) |}]) ∧
  (∀ n,
     max_query_workers (env self) = Some n → 0 < n →
     ∃ executor,
       start_other self
       = Ok {| env := env self; query_executor := Some executor |} ∧
       executor = ProcessPoolExecutor n reader_initializer
                    (lit "claims.db", coin_NET (env self)) ∧
       workers executor
       = replicate (Z.to_nat n)
           {| in_process := false; index_path := lit "claims.db";
              network := coin_NET (env self) |}) ∧
  (∀ cores,
     max_query_workers (env self) = None → os_cpu_count = PyInt cores →
     ∃ executor,
       start_other self
       = Ok {| env := env self; query_executor := Some executor |} ∧
       executor = ProcessPoolExecutor (Z.max cores 4) reader_initializer
                    (lit "claims.db", coin_NET (env self)) ∧
       workers executor
       = replicate (Z.to_nat (Z.max cores 4))
           {| in_process := false; index_path := lit "claims.db";
              network := coin_NET (env self) |}).
Proof.
  unfold start_other. split; [|split].
  - intros ->. by eexists.
  - intros n -> Hn. destruct n as [|n|n]; [lia| |lia].
    eexists. split; [|split]; reflexivity.
  - intros cores -> ->. by eexists.
Qed.

(** On the eight-core demo host: zero gives one in-process worker, three
    gives three processes, no setting gives eight. *)
Lemma start_other_cases_witness :
  @start_other demo_imports (manager (Some 0))
  = Ok (started (Some 0) (ThreadPoolExecutor 1 reader_initializer
                            (lit "claims.db", lit "mainnet"))) ∧
  @start_other demo_imports (manager (Some 3))
  = Ok (started (Some 3) (ProcessPoolExecutor 3 reader_initializer
                            (lit "claims.db", lit "mainnet"))) ∧
  length (workers (ProcessPoolExecutor 3 reader_initializer
                     (lit "claims.db", lit "mainnet"))) = 3%nat ∧
  @start_other demo_imports (manager None)
  = Ok (started None (ProcessPoolExecutor 8 reader_initializer
                        (lit "claims.db", lit "mainnet"))).
Proof.
  destruct (@start_other_cases demo_imports (manager (Some 0)))
    as (Hzero & _ & _).
  destruct (@start_other_cases demo_imports (manager (Some 3)))
    as (_ & Hn & _).
  destruct (@start_other_cases demo_imports (manager None)) as (_ & _ & Hnone).
  destruct (Hzero eq_refl) as (e0 & -> & -> & _).
  destruct (Hn 3 eq_refl ltac:(lia)) as (e3 & -> & -> & Hw).
  destruct (Hnone 8 eq_refl eq_refl) as (e8 & -> & -> & _).
  split; [reflexivity|]. split; [reflexivity|].
  split; [exact (f_equal length Hw)|reflexivity].
Defined.

(** ** The error budget *)

Section error_budget.
Context `{Imports}.

Lemma serve_unbounded self s r :
  closed s = false →
  closed (serve max_errors self s r) = false ∧
  (erroring self r → errors (serve max_errors self s r) = errors s + 1).
Proof.
  intros Hopen. unfold serve, erroring. rewrite Hopen.
  destruct (request_handlers self r).2 as [v|e]; cbn.
  - split; [done|]. by intros [e [=]].
  - done.
Qed.

(** C9: with [max_errors] set to infinity a session that starts open is
    open after any sequence of requests, whatever their outcomes; when all
    of them end in an error the counter has counted every one of them, and
    the session still serves the next request. *)
Theorem errors_never_close_the_session self rs :
  closed (serve_all max_errors self fresh_session rs) = false ∧
  (Forall (erroring self) rs →
   errors (serve_all max_errors self fresh_session rs)
   = Z.of_nat (length rs)) ∧
  (∀ r, closed (serve max_errors self
                  (serve_all max_errors self fresh_session rs) r) = false).
Proof.
  assert (Hall : closed (serve_all max_errors self fresh_session rs) = false ∧
                 (Forall (erroring self) rs →
                  errors (serve_all max_errors self fresh_session rs)
                  = Z.of_nat (length rs))).
  { unfold serve_all. induction rs as [|r rs [IHopen IHcount]] using rev_ind.
    - done.
    - rewrite foldl_snoc.
      destruct (serve_unbounded self _ r IHopen) as [Hopen Hcount].
      split; [exact Hopen|].
      intros [Hrs Hr]%Forall_app. apply Forall_cons in Hr as [Hr _].
      rewrite (Hcount Hr), (IHcount Hrs), length_app. cbn. lia. }
  destruct Hall as [Hopen Hcount]. split; [done|]. split; [done|].
  intros r. by apply serve_unbounded.
Qed.

(** A finite budget does close the session: the accounting is not idle. *)
Lemma finite_budget_closes self s r n :
  closed s = false → erroring self r → n ≤ errors s + 1 →
  closed (serve (Finite n) self s r) = true.
Proof.
  intros Hopen [e He] Hn. unfold serve. rewrite Hopen, He. cbn.
  by apply Z.leb_le.
Qed.

End error_budget.

(** Three malformed requests in a row leave the demo session open with
    three errors counted. *)
Lemma errors_never_close_the_session_witness :
  serve_all (H := demo_imports) max_errors demo fresh_session
    [transaction_get_height_request (PyStr tx_short);
     claimtrie_search_request criteria_bad_id;
     transaction_get_height_request (PyInt 7)]
  = {| errors := 3; closed := false |}.
Proof.
  destruct (@errors_never_close_the_session demo_imports demo
              [transaction_get_height_request (PyStr tx_short);
               claimtrie_search_request criteria_bad_id;
               transaction_get_height_request (PyInt 7)])
    as (Hopen & Hcount & _).
  destruct (serve_all _ _ _ _) as [count shut]. cbn in Hopen, Hcount.
  rewrite Hopen, Hcount; [reflexivity|].
  repeat constructor; eexists; reflexivity.
Defined.
